(** * Browser verification scripts of [jules-scratch/verification]

    The nine scripts drive a component showcase page through the Playwright
    API and save one screenshot each.  Every script has the same skeleton

      with sync_playwright() as p:
          browser = p.chromium.launch()
          page = browser.new_page()
          ... calls on page ...
          page.screenshot(path=..., full_page=True)
          browser.close()

    The calls on [page] are embedded as a list of [Step]s, the skeleton as the
    function [main], the browser and the page under test as the interface
    [Browser]. *)

From stdpp Require Import gmap strings list fin_maps.
From Stdlib Require Import ZArith Lia Ascii.

Open Scope string_scope.
Open Scope Z_scope.

(** ** Locators *)

(** A locator describes how to find an element; it is resolved against the
    live document each time it is used.  [page] is the root every chain of
    the scripts starts from. *)
Inductive Locator : Type :=
| page
| get_by_role (parent : Locator) (role : string) (name : option string) (exact : bool)
| get_by_text (parent : Locator) (text : string)
| get_by_label (parent : Locator) (text : string)
| locator (parent : Locator) (selector : string)
| first (l : Locator).

(** ** Steps: the calls a script makes on its page *)

Inductive Step : Type :=
| goto (path : string)
    (* file_path = os.path.abspath(path); page.goto(f'file://{file_path}') *)
| set_viewport_size (width height : Z)
| click (l : Locator)
| hover (l : Locator)
| expect_to_be_visible (l : Locator)
| expect_not_to_be_visible (l : Locator)
| expect_to_have_css (l : Locator) (name value : string)
| wait_for_timeout (ms : Z).

(** A script: its file name, the calls made on the page, in order, up to the
    screenshot, and the [path] argument of the screenshot. *)
Record Scenario : Type := {
  script : string;
  steps : list Step;
  artifact : string
}.

(** ** The scripts *)

Definition index_html : string := "basecoat-clone-ui/index.html".

Definition heading (name : string) : Locator :=
  get_by_role page "heading" (Some name) true.

Definition button (name : string) : Locator :=
  get_by_role page "button" (Some name) false.

Definition double_quote : string := String (ascii_of_nat 34) EmptyString.

Definition verify_all_components : Scenario :=
  let forms_heading := heading "Forms" in
  let adv_forms_heading := heading "Advanced Forms & Inputs" in
  let select_trigger := locator page ".select-trigger" in
  {| script := "verify_all_components.py";
     steps :=
       [ goto index_html;
         set_viewport_size 1280 3200;
         expect_to_be_visible (heading "Button");
         expect_to_be_visible (heading "Accordion");
         expect_to_be_visible (heading "Dialog");
         expect_to_be_visible (heading "Tooltip");
         expect_to_be_visible (heading "Toast");
         expect_to_be_visible (heading "Card");
         expect_to_be_visible forms_heading;
         expect_to_be_visible adv_forms_heading;
         expect_to_be_visible (heading "Alert");
         expect_to_be_visible (heading "Avatar");
         expect_to_be_visible (heading "Badge");
         expect_to_be_visible select_trigger;
         click select_trigger;
         expect_to_be_visible (locator page ".select-popover") ];
     artifact := "jules-scratch/verification/verification_full_library.png" |}.

(** The function of this script is called [run]; it launches the browser
    with [headless=True], which is what [launch()] does anyway. *)
Definition verify_components : Scenario :=
  {| script := "verify_components.py";
     steps :=
       [ goto index_html;
         wait_for_timeout 1000 ];
     artifact := "jules-scratch/verification/verification.png" |}.

Definition verify_display_components : Scenario :=
  let alert := first (locator page ".alert") in
  let avatar_image :=
    locator page ("img[alt=" +:+ double_quote +:+ "User Avatar" +:+ double_quote +:+ "]") in
  let avatar_fallback := get_by_text page "CN" in
  let badge := get_by_text page "Default" in
  {| script := "verify_display_components.py";
     steps :=
       [ goto index_html;
         set_viewport_size 1280 2000;
         expect_to_be_visible alert;
         expect_to_be_visible (get_by_role alert "heading" (Some "Alert Title") false);
         expect_to_be_visible avatar_image;
         expect_to_be_visible avatar_fallback;
         expect_to_be_visible badge;
         expect_to_be_visible (get_by_text page "Primary") ];
     artifact := "jules-scratch/verification/verification_display.png" |}.

Definition verify_full_library : Scenario :=
  let dialog := get_by_role page "dialog" None false in
  let select_trigger := locator page ".select-trigger" in
  let select_popover := locator page ".select-popover" in
  {| script := "verify_full_library.py";
     steps :=
       [ goto index_html;
         set_viewport_size 1280 4000;
         click (button "Open Dialog");
         expect_to_be_visible dialog;
         expect_to_be_visible (get_by_role dialog "heading" (Some "Dialog Title") false);
         click (get_by_role dialog "button" (Some "Close") false);
         expect_not_to_be_visible dialog;
         hover (button "Hover me");
         expect_to_be_visible (get_by_text page "This is a tooltip!");
         click (button "Show Toast");
         expect_to_be_visible (get_by_text page "Your message has been sent.");
         click select_trigger;
         expect_to_be_visible select_popover;
         click (get_by_text select_popover "Apple");
         expect_to_be_visible (get_by_text select_trigger "Apple");
         expect_not_to_be_visible select_popover;
         expect_to_be_visible
           (locator (locator (get_by_label page "Resizable Panel") "..") ".resizable") ];
     artifact := "jules-scratch/verification/verification_final.png" |}.

Definition showcase_heading : Locator :=
  get_by_role page "heading" (Some "Component Showcase") false.

Definition verify_full_library_final : Scenario :=
  let dialog := get_by_role page "dialog" None false in
  let select_trigger := locator page ".select-trigger" in
  let select_popover := locator page ".select-popover" in
  {| script := "verify_full_library_final.py";
     steps :=
       [ goto index_html;
         set_viewport_size 1280 4000;
         click (button "Open Dialog");
         expect_to_be_visible dialog;
         click (get_by_role dialog "button" (Some "Close") false);
         expect_not_to_be_visible dialog;
         hover (button "Hover me");
         expect_to_be_visible (get_by_text page "This is a tooltip!");
         hover showcase_heading;
         expect_not_to_be_visible (get_by_text page "This is a tooltip!");
         click (button "Show Toast");
         expect_to_be_visible (get_by_text page "Your message has been sent.");
         click select_trigger;
         expect_to_be_visible select_popover;
         click showcase_heading;
         expect_not_to_be_visible select_popover;
         wait_for_timeout 1000 ];
     artifact := "jules-scratch/verification/verification_final.png" |}.

Definition verify_full_library_final_v2 : Scenario :=
  let dialog := get_by_role page "dialog" None false in
  let tooltip_content := get_by_text page "This is a tooltip!" in
  let select_trigger := locator page ".select-trigger" in
  let select_popover := locator page ".select-popover" in
  {| script := "verify_full_library_final_v2.py";
     steps :=
       [ goto index_html;
         set_viewport_size 1280 4000;
         click (button "Open Dialog");
         expect_to_be_visible dialog;
         click (get_by_role dialog "button" (Some "Close") false);
         expect_not_to_be_visible dialog;
         hover (button "Hover me");
         expect_to_be_visible tooltip_content;
         hover showcase_heading;
         wait_for_timeout 200;
         expect_not_to_be_visible tooltip_content;
         click (button "Show Toast");
         expect_to_be_visible (get_by_text page "Your message has been sent.");
         click select_trigger;
         expect_to_be_visible select_popover;
         click showcase_heading;
         wait_for_timeout 200;
         expect_not_to_be_visible select_popover;
         wait_for_timeout 1000 ];
     artifact := "jules-scratch/verification/verification_final.png" |}.

Definition verify_full_library_final_v3 : Scenario :=
  let dialog := get_by_role page "dialog" None false in
  let tooltip_trigger := button "Hover me" in
  let tooltip_content := get_by_text page "This is a tooltip!" in
  let select_trigger := locator page ".select-trigger" in
  let select_popover := locator page ".select-popover" in
  {| script := "verify_full_library_final_v3.py";
     steps :=
       [ goto index_html;
         set_viewport_size 1280 4000;
         click (button "Open Dialog");
         expect_to_be_visible dialog;
         click (get_by_role dialog "button" (Some "Close") false);
         expect_not_to_be_visible dialog;
         hover tooltip_trigger;
         expect_to_be_visible tooltip_content;
         hover showcase_heading;
         expect_to_have_css tooltip_content "opacity" "0";
         click (button "Show Toast");
         expect_to_be_visible (get_by_text page "Your message has been sent.");
         click select_trigger;
         expect_to_be_visible select_popover;
         click showcase_heading;
         expect_to_have_css select_popover "opacity" "0";
         wait_for_timeout 1000 ];
     artifact := "jules-scratch/verification/verification_final.png" |}.

Definition verify_layout_components : Scenario :=
  let layout_section :=
    locator (locator (heading "Layout & Structure") "..") ".component-preview" in
  {| script := "verify_layout_components.py";
     steps :=
       [ goto index_html;
         set_viewport_size 1280 4000;
         expect_to_be_visible (locator layout_section ".aspect-ratio-16-9");
         expect_to_be_visible (locator layout_section ".separator");
         expect_to_be_visible (locator layout_section ".resizable");
         expect_to_be_visible (locator layout_section ".scroll-area");
         expect_to_be_visible (get_by_role layout_section "table" None false) ];
     artifact := "jules-scratch/verification/verification_layout.png" |}.

Definition verify_page_structure : Scenario :=
  {| script := "verify_page_structure.py";
     steps :=
       [ goto index_html;
         set_viewport_size 1280 4000;
         expect_to_be_visible (heading "Display");
         expect_to_be_visible (heading "Buttons & Controls");
         expect_to_be_visible (heading "Form Inputs");
         expect_to_be_visible (heading "Overlays & Feedback");
         expect_to_be_visible (heading "Layout & Structure") ];
     artifact := "jules-scratch/verification/verification_structure.png" |}.

(** The scripts of the directory. *)
Definition all_scripts : list Scenario :=
  [ verify_all_components; verify_components; verify_display_components;
    verify_full_library; verify_full_library_final;
    verify_full_library_final_v2; verify_full_library_final_v3;
    verify_layout_components; verify_page_structure ].

(** The four variants of the full-library script. *)
Definition full_library_variants : list Scenario :=
  [ verify_full_library; verify_full_library_final;
    verify_full_library_final_v2; verify_full_library_final_v3 ].

(** ** Errors and results *)

Inductive Error : Type :=
| NavigationError (url : string)
| ActionTimeout (l : Locator)
| AssertionTimeout (l : Locator).

Inductive Result (E A : Type) : Type :=
| Ok (a : A)
| Err (e : E).
Arguments Ok {E A} a.
Arguments Err {E A} e.

(** A failure of a scenario: the index of the failing step and its error. *)
Definition Failure : Type := nat * Error.


(** ** Paths *)

Definition ends_with_slash (s : string) : bool :=
  match String.get (String.length s - 1)%nat s with
  | Some c => bool_decide (c = "/"%char)
  | None => false
  end.

(** [os.path.join] on POSIX. *)
Definition join (a b : string) : string :=
  if String.prefix "/" b then b
  else if bool_decide (a = "") || ends_with_slash a then a +:+ b
  else a +:+ "/" +:+ b.

(** [os.path.abspath(path)] is [normpath(join(os.getcwd(), path))].  The
    working directory is normalised already and the path literals of the
    scripts hold no [.], [..] or empty segment, so that [normpath] leaves
    the joined path as it is. *)
Definition abspath (cwd path : string) : string := join cwd path.

(** *** File URLs *)

(** The scripts paste the absolute path behind [file://] as it is, without
    quoting it; the browser reads the result as a URL.  The path of the URL
    ends at the first [#] (the fragment) or [?] (the query). *)
Fixpoint url_path_part (s : string) : string :=
  match s with
  | EmptyString => EmptyString
  | String c t =>
      if bool_decide (c = "#"%char) || bool_decide (c = "?"%char)
      then EmptyString
      else String c (url_path_part t)
  end.

Definition hex_value (c : ascii) : option nat :=
  let n := nat_of_ascii c in
  if (48 <=? n)%nat && (n <=? 57)%nat then Some (n - 48)%nat
  else if (65 <=? n)%nat && (n <=? 70)%nat then Some (n - 55)%nat
  else if (97 <=? n)%nat && (n <=? 102)%nat then Some (n - 87)%nat
  else None.

(** A [%] followed by two hexadecimal digits stands for the byte they
    denote; any other [%] stands for itself. *)
Fixpoint percent_decode (s : string) : string :=
  match s with
  | EmptyString => EmptyString
  | String c t =>
      let keep := String c (percent_decode t) in
      if bool_decide (c = "%"%char) then
        match t with
        | String a (String b rest) =>
            match hex_value a, hex_value b with
            | Some x, Some y =>
                String (ascii_of_nat (16 * x + y)) (percent_decode rest)
            | _, _ => keep
            end
        | _ => keep
        end
      else keep
  end.

(** The file the browser opens for the text behind [file://]. *)
Definition url_file (s : string) : string := percent_decode (url_path_part s).

(** The file a [file://] URL names. *)
Definition file_of_url (url : string) : option string :=
  if String.prefix "file://" url
  then Some (url_file (String.substring 7 (String.length url - 7) url))
  else None.


(** ** The browser and the page under test *)

(** What the scripts consume of Playwright and of the page: a document state
    that reacts to navigation, actions and the passing of time, and that can
    be queried and rendered. *)
Class Browser : Type := {
  Doc : Type;
  File : Type;
  (** the page of [browser.new_page()] *)
  blank : Doc;
  (** the page after navigating to a file *)
  load : File -> Doc -> Doc;
  resize : Z -> Z -> Doc -> Doc;
  (** the page after an action on the element of a locator; [None] when the
      element is not found or not actionable before the action times out *)
  on_click : Locator -> Doc -> option Doc;
  on_hover : Locator -> Doc -> option Doc;
  visible : Locator -> Doc -> bool;
  computed_style : Locator -> string -> Doc -> option string;
  (** the page after some milliseconds *)
  elapse : Z -> Doc -> Doc;
  (** the image of the page, as the content of a file *)
  capture : bool -> Doc -> File;
  (** time between two polls of an assertion, and the number of polls after
      the first one that fit in its timeout *)
  poll_interval : Z;
  expect_polls : nat
}.

Section Runner.
Context `{B : Browser}.

(** The state outside the page: working directory, file system, the number
    of browser processes that are alive, and the Playwright sessions that
    are alive, the innermost first, each with the number of browsers it has
    launched and not closed. *)
Record World : Type := {
  cwd : string;
  fs : gmap string File;
  browsers : nat;
  sessions : list nat
}.

Definition set_fs (m : gmap string File) (w : World) : World :=
  {| cwd := cwd w; fs := m; browsers := browsers w; sessions := sessions w |}.

Definition set_resources (n : nat) (s : list nat) (w : World) : World :=
  {| cwd := cwd w; fs := fs w; browsers := n; sessions := s |}.

(** *** Resources *)

(** What the four resource calls of the scripts do to the browsing context
    is Playwright's doing and not part of the scripts.  The spec has the
    runner "open an isolated browsing context", has it, "on success",
    capture the image "and release the browsing context", and on failure has
    "the browsing context released regardless": "scoped acquisition of the
    browsing-context resource with release on all exit paths, including the
    error path". *)

(** Modelled from the spec: [with sync_playwright() as p:] on entry, the
    acquisition of the scope: a new session, without a browser. *)
Definition sync_playwright_enter (w : World) : World :=
  set_resources (browsers w) (0%nat :: sessions w) w.

(** Modelled from the spec: [p.chromium.launch()], which opens the
    browsing context: one more browser, owned by the session. *)
Definition launch (w : World) : World :=
  match sessions w with
  | n :: rest => set_resources (S (browsers w)) (S n :: rest) w
  | [] => w
  end.

(** Modelled from the spec: [browser.close()], the release on success:
    one browser of the session less, if one is open. *)
Definition browser_close (w : World) : World :=
  match sessions w with
  | S n :: rest => set_resources (Nat.pred (browsers w)) (n :: rest) w
  | _ => w
  end.

(** Modelled from the spec: leaving the [with] block, on whichever path,
    the release "on all exit paths": the session ends, and the browsers it
    still has open end with it. *)
Definition sync_playwright_exit (w : World) : World :=
  match sessions w with
  | n :: rest => set_resources (browsers w - n)%nat rest w
  | [] => w
  end.

(** *** Assertions *)

(** Modelled from the spec: the retry loop of [expect(...)], which is
    Playwright's and not part of the scripts.  The condition is polled
    until it holds or the timeout elapses: it is checked at once, and then
    after each interval, [n] more times. *)
Fixpoint poll (n : nat) (cond : Doc -> bool) (d : Doc) : option Doc :=
  if cond d then Some d
  else match n with
       | O => None
       | S n' => poll n' cond (elapse poll_interval d)
       end.

Definition has_css (l : Locator) (name value : string) (d : Doc) : bool :=
  bool_decide (computed_style l name d = Some value).

Definition expect (l : Locator) (cond : Doc -> bool) (d : Doc) : Result Error Doc :=
  match poll expect_polls cond d with
  | Some d' => Ok d'
  | None => Err (AssertionTimeout l)
  end.

(** *** One step *)

Definition action (l : Locator) (r : option Doc) : Result Error Doc :=
  match r with
  | Some d' => Ok d'
  | None => Err (ActionTimeout l)
  end.

Definition navigate (url : string) (w : World) (d : Doc) : Result Error Doc :=
  match file_of_url url ≫= (fs w !!.) with
  | Some f => Ok (load f d)
  | None => Err (NavigationError url)
  end.

Definition step (w : World) (s : Step) (d : Doc) : Result Error Doc :=
  match s with
  | goto path =>
      let file_path := abspath (cwd w) path in
      navigate ("file://" +:+ file_path) w d
  | set_viewport_size width height => Ok (resize width height d)
  | click l => action l (on_click l d)
  | hover l => action l (on_hover l d)
  | expect_to_be_visible l => expect l (visible l) d
  | expect_not_to_be_visible l => expect l (fun d => negb (visible l d)) d
  | expect_to_have_css l name value => expect l (has_css l name value) d
  | wait_for_timeout ms => Ok (elapse ms d)
  end.

(** The steps in order, from step number [i]; the first failure ends the
    run and is reported with the number of its step. *)
Fixpoint exec (w : World) (i : nat) (ss : list Step) (d : Doc) : Result Failure Doc :=
  match ss with
  | [] => Ok d
  | s :: rest =>
      match step w s d with
      | Ok d' => exec w (S i) rest d'
      | Err e => Err (i, e)
      end
  end.

(** Modelled from the spec: the write of
    [page.screenshot(path=path, full_page=full_page)], which is Playwright's.
    "If all N steps succeed, exactly one artifact file is produced", an
    existing file is overwritten ("collisions overwrite silently"), and no
    kind of error is foreseen for the write.  The relative path is left to
    the operating system, which resolves it against the working
    directory. *)
Definition screenshot (path : string) (full_page : bool) (d : Doc) (w : World)
  : World :=
  let target := join (cwd w) path in
  set_fs (<[target := capture full_page d]> (fs w)) w.

(** *** A script *)

(** The body of the [with] block. *)
Definition body (sc : Scenario) (w : World) : Result Failure unit * World :=
  let w := launch w in
  match exec w 0 (steps sc) blank with
  | Err e => (Err e, w)
  | Ok d =>
      let w := screenshot (artifact sc) true d w in
      (Ok (), browser_close w)
  end.

(** [main()]: the [with] block releases the session however its body ends. *)
Definition main (sc : Scenario) (w : World) : Result Failure unit * World :=
  let '(r, w) := body sc (sync_playwright_enter w) in
  (r, sync_playwright_exit w).

(** The message of the interpreter for an exception nobody caught: the
    place of the failing call in the script, and the exception. *)
Record Traceback : Type := {
  tb_file : string;
  tb_step : nat;
  tb_error : Error
}.

Record Exit : Type := {
  exit_code : Z;
  stderr : list Traceback
}.

(** Modelled from the spec: what becomes of
    [if __name__ == '__main__': main()] at the level of the process, which
    is the interpreter's doing and not part of the scripts: "success exit
    code when every configured scenario completes; non-zero exit code and a
    diagnostic message identifying the failing scenario and step on any
    failure". *)
Definition run_script (sc : Scenario) (w : World) : Exit * World :=
  match main sc w with
  | (Ok _, w') => ({| exit_code := 0; stderr := [] |}, w')
  | (Err (i, e), w') =>
      ({| exit_code := 1;
          stderr := [ {| tb_file := script sc; tb_step := i; tb_error := e |} ] |}, w')
  end.

End Runner.

(** ** Decidable equality of the script syntax *)

#[global] Instance Locator_eq_dec : EqDecision Locator.
Proof. solve_decision. Defined.

#[global] Instance Step_eq_dec : EqDecision Step.
Proof. solve_decision. Defined.

#[global] Instance Scenario_eq_dec : EqDecision Scenario.
Proof. solve_decision. Defined.

(** ** Reading the scripts *)

(** The files a list of steps navigates to, resolved from a working
    directory. *)
Fixpoint documents (cwd : string) (ss : list Step) : list string :=
  match ss with
  | [] => []
  | goto path :: rest => url_file (abspath cwd path) :: documents cwd rest
  | _ :: rest => documents cwd rest
  end.

Definition is_assertion (s : Step) : bool :=
  match s with
  | expect_to_be_visible _ | expect_not_to_be_visible _ | expect_to_have_css _ _ _ => true
  | _ => false
  end.

(** Call number [i] is a fixed wait and the call after it is an assertion:
    the assertion polls a condition of the document, and the wait before it
    gives that same condition time to come about. *)
Definition waits_for_polled_condition (ss : list Step) (i : nat) : bool :=
  match ss !! i, ss !! S i with
  | Some (wait_for_timeout _), Some s => is_assertion s
  | _, _ => false
  end.

(** No two scripts of a list save their screenshot under one path. *)
Definition artifact_unique (l : list Scenario) : Prop :=
  ∀ a b, a ∈ l → b ∈ l → artifact a = artifact b → a = b.

(** The page after [k] polling intervals. *)
Definition after `{B : Browser} (k : nat) (d : Doc) : Doc :=
  Nat.iter k (elapse poll_interval) d.

(** A scenario with its calls after the first [n] replaced. *)
Definition with_rest (sc : Scenario) (n : nat) (rest : list Step) : Scenario :=
  {| script := script sc; steps := (take n (steps sc) ++ rest)%list; artifact := artifact sc |}.

(** Step [i] of a run is the one that fails with [e]: the calls before it
    succeed, and it fails on the page they leave. *)
Definition fails_at `{B : Browser} (sc : Scenario) (w : World) (i : nat) (e : Error) : Prop :=
  ∃ s d, steps sc !! i = Some s ∧
         exec w 0 (take i (steps sc)) blank = Ok d ∧
         step w s d = Err e.



(** What a run of a script yields: its failure, or the file found under its
    artifact path once it has succeeded. *)
Definition outcome `{B : Browser} (sc : Scenario) (w : World)
  : Result Failure (option File) :=
  let '(r, w') := main sc w in
  match r with
  | Ok _ => Ok (fs w' !! join (cwd w) (artifact sc))
  | Err f => Err f
  end.

(** ** Scripts that only look *)

(** The calls that act on an element of the page. *)
Definition interacts (s : Step) : bool :=
  match s with
  | click _ | hover _ => true
  | _ => false
  end.

(** The scripts that make no such call. *)
Definition view_only_scripts : list Scenario :=
  [ verify_components; verify_display_components;
    verify_layout_components; verify_page_structure ].

(** The three scripts that came after [verify_full_library.py]. *)
Definition final_variants : list Scenario :=
  [ verify_full_library_final; verify_full_library_final_v2;
    verify_full_library_final_v3 ].

(** A page reached from another one by navigation, resizing and the
    passing of time alone. *)
Inductive untouched `{B : Browser} : Doc → Doc → Prop :=
| untouched_here d : untouched d d
| untouched_load d d' f : untouched d d' → untouched d (load f d')
| untouched_resize d d' width height :
    untouched d d' → untouched d (resize width height d')
| untouched_elapse d d' ms : untouched d d' → untouched d (elapse ms d').

(** ** Scripts run one after the other *)

(** The state after the scripts of a list have been run in order, each
    from the state the one before it left. *)
Definition run_all `{B : Browser} (l : list Scenario) (w : World) : World :=
  foldl (λ w sc, (main sc w).2) w l.

(** ** A page without behaviour *)

(** A document is the list of the elements that are visible in it; nothing
    on the page reacts or moves. *)
Definition static_page : Browser := {|
  Doc := list Locator;
  File := list Locator;
  blank := [];
  load f _ := f;
  resize _ _ d := d;
  on_click l d := if bool_decide (l ∈ d) then Some d else None;
  on_hover l d := if bool_decide (l ∈ d) then Some d else None;
  visible l d := bool_decide (l ∈ d);
  computed_style l name d :=
    if bool_decide (l ∈ d) then Some (if bool_decide (name = "opacity") then "1" else "")
    else None;
  elapse _ d := d;
  capture _ d := d;
  poll_interval := 100;
  expect_polls := 50
|}.

(** ** The dialog page *)

Inductive DialogElement : Type := OpenButton | TheDialog | CloseButton.

Inductive DialogDoc : Type :=
| NoDocument
| DialogDocument (open : bool).

Inductive DialogFile : Type :=
| DialogHtml
| DialogImage (d : DialogDoc).

Definition dialog_resolve (l : Locator) : option DialogElement :=
  match l with
  | get_by_role page role name _ =>
      if bool_decide (role = "button" ∧ name = Some "Open Dialog") then Some OpenButton
      else if bool_decide (role = "dialog" ∧ name = None) then Some TheDialog
      else None
  | get_by_role (get_by_role page prole pname _) role name _ =>
      if bool_decide (prole = "dialog" ∧ pname = None ∧
                      role = "button" ∧ name = Some "Close")
      then Some CloseButton
      else None
  | _ => None
  end.

Definition dialog_visible (l : Locator) (d : DialogDoc) : bool :=
  match d, dialog_resolve l with
  | DialogDocument _, Some OpenButton => true
  | DialogDocument open, Some TheDialog => open
  | DialogDocument open, Some CloseButton => open
  | _, _ => false
  end.

Definition dialog_click (l : Locator) (d : DialogDoc) : option DialogDoc :=
  match d, dialog_resolve l with
  | DialogDocument _, Some OpenButton => Some (DialogDocument true)
  | DialogDocument true, Some CloseButton => Some (DialogDocument false)
  | DialogDocument true, Some TheDialog => Some d
  | _, _ => None
  end.

(** Modelled from the spec: the page under test, which is not among the
    sources.  It is the document of the dialog scenario: a button labelled
    "Open Dialog" and an element of role "dialog", hidden at first; a click
    on the button shows the dialog, a click on the button labelled "Close"
    inside the dialog hides it again. *)
Definition dialog_page : Browser := {|
  Doc := DialogDoc;
  File := DialogFile;
  blank := NoDocument;
  load f _ := match f with DialogHtml => DialogDocument false | DialogImage _ => NoDocument end;
  resize _ _ d := d;
  on_click := dialog_click;
  on_hover l d := if dialog_visible l d then Some d else None;
  visible := dialog_visible;
  computed_style l name d :=
    if bool_decide (name = "opacity")
    then (if dialog_visible l d then Some "1" else Some "0")
    else None;
  elapse _ d := d;
  capture _ d := DialogImage d;
  poll_interval := 100;
  expect_polls := 50
|}.

(** The calls of the dialog scenario, as the three last variants of the
    full-library script make them: navigation, viewport, and the four calls
    on the dialog. *)
Definition dialog_scenario : list Step :=
  take 6 (steps verify_full_library_final_v3).

(** ** A page with a fading element *)

(** A document is the time in milliseconds its one element still needs to
    fade out; the opacity reads 0 once the fade is over. *)
Definition fading_page : Browser := {|
  Doc := Z;
  File := Z;
  blank := 0;
  load f _ := f;
  resize _ _ d := d;
  on_click _ d := Some d;
  on_hover _ d := Some d;
  visible _ d := bool_decide (0 < d);
  computed_style _ name d :=
    if bool_decide (name = "opacity")
    then Some (if bool_decide (0 < d) then "0.5" else "0")
    else None;
  elapse ms d := Z.max 0 (d - ms);
  capture _ d := d;
  poll_interval := 100;
  expect_polls := 50
|}.

(** ** Worlds to run in *)

Definition repo_root : string := "/home/user/zz".

Definition world_of `{B : Browser} (dir : string) (files : gmap string File) : World :=
  {| cwd := dir; fs := files; browsers := 0; sessions := [] |}.

(** A page that shows the five section headings. *)
Definition structure_html : list Locator :=
  [ heading "Display"; heading "Buttons & Controls"; heading "Form Inputs";
    heading "Overlays & Feedback"; heading "Layout & Structure" ].

(** The same page with the last section missing. *)
Definition broken_html : list Locator :=
  [ heading "Display"; heading "Buttons & Controls"; heading "Form Inputs";
    heading "Overlays & Feedback" ].

Definition static_world (html : list Locator) : @World static_page :=
  world_of repo_root {[ "/home/user/zz/basecoat-clone-ui/index.html" := html ]}.

Definition dialog_world : @World dialog_page :=
  world_of repo_root {[ "/home/user/zz/basecoat-clone-ui/index.html" := DialogHtml ]}.


(** * Properties *)

(** ** Paths and URLs *)

Lemma substring_whole (s : string) : String.substring 0 (String.length s) s = s.
Proof. induction s as [|c s IH]; simpl; [done | by rewrite IH]. Qed.

Lemma file_of_url_file (p : string) : file_of_url ("file://" +:+ p) = Some (url_file p).
Proof.
  unfold file_of_url. cbv beta iota fix delta [String.append].
  cbn. rewrite Nat.sub_0_r.
  destruct p; cbn; [done |]. by rewrite substring_whole.
Qed.

Lemma append_cancel (a b c : string) : a +:+ b = a +:+ c → b = c.
Proof.
  induction a as [|x a IH]; cbn [String.append]; intros H; [done |].
  injection H. auto.
Qed.

Lemma length_append (a b : string) :
  String.length (a +:+ b) = (String.length a + String.length b)%nat.
Proof.
  induction a as [|x a IH]; [done |].
  cbn [String.append].
  change (S (String.length (a +:+ b)) = S (String.length a + String.length b)).
  by rewrite IH.
Qed.

(** Where a relative path lands depends on its text alone, once the working
    directory is fixed. *)
Lemma join_relative_inj (dir a b : string) :
  String.prefix "/" a = false → String.prefix "/" b = false →
  join dir a = join dir b → a = b.
Proof.
  unfold join. intros -> ->.
  destruct (bool_decide (dir = "") || ends_with_slash dir); intros H.
  - by apply append_cancel in H.
  - apply append_cancel in H. by apply (append_cancel "/") in H.
Qed.

(** A relative path lands as many characters behind the directory as it is
    long. *)
Lemma join_relative_length (dir a : string) :
  String.prefix "/" a = false →
  String.length (join dir a) = (String.length (join dir "") + String.length a)%nat.
Proof.
  unfold join. intros ->. cbn [String.prefix].
  destruct (bool_decide (dir = "") || ends_with_slash dir);
    rewrite !length_append; cbn [String.length]; lia.
Qed.

(** Reading a text as a URL never makes it longer. *)
Lemma url_path_part_length (s : string) :
  (String.length (url_path_part s) ≤ String.length s)%nat.
Proof.
  induction s as [|c s IH]; simpl; [done |].
  destruct (bool_decide (c = "#"%char) || bool_decide (c = "?"%char)); simpl; lia.
Qed.

Lemma percent_decode_length (s : string) :
  (String.length (percent_decode s) ≤ String.length s)%nat.
Proof.
  assert (H : ∀ n s, (String.length s ≤ n)%nat →
                     (String.length (percent_decode s) ≤ String.length s)%nat).
  { clear s. induction n as [|n IH]; intros [|c t] Hn; simpl in *; try lia.
    assert (Hkeep : (S (String.length (percent_decode t)) ≤ S (String.length t))%nat).
    { apply le_n_S, IH. lia. }
    destruct (bool_decide (c = "%"%char)); [|done].
    destruct t as [|a [|b rest]]; try done.
    destruct (hex_value a), (hex_value b); try done.
    simpl in *. assert (String.length (percent_decode rest) ≤ String.length rest)%nat.
    { apply IH. lia. }
    lia. }
  by apply (H (String.length s)).
Qed.

Lemma url_file_length (s : string) :
  (String.length (url_file s) ≤ String.length s)%nat.
Proof.
  unfold url_file.
  pose proof (percent_decode_length (url_path_part s)).
  pose proof (url_path_part_length s). lia.
Qed.




Section RunnerFacts.
Context `{B : Browser}.

(** ** The resource calls cancel out *)

Lemma exit_launch_enter (w : World) :
  sync_playwright_exit (launch (sync_playwright_enter w)) = w.
Proof.
  destruct w as [dir files n ss].
  unfold sync_playwright_exit, launch, sync_playwright_enter, set_resources. simpl.
  f_equal. lia.
Qed.

Lemma exit_close_launch_enter (m : gmap string File) (w : World) :
  sync_playwright_exit (browser_close (set_fs m (launch (sync_playwright_enter w))))
  = set_fs m w.
Proof.
  destruct w as [dir files n ss].
  unfold sync_playwright_exit, browser_close, launch, sync_playwright_enter,
    set_resources, set_fs. simpl.
  f_equal. lia.
Qed.

(** ** Steps read the working directory and the documents they open *)

Lemma step_agree (w1 w2 : World) (s : Step) (d : Doc) :
  cwd w1 = cwd w2 →
  (∀ p, p ∈ documents (cwd w1) [s] → fs w1 !! p = fs w2 !! p) →
  step w1 s d = step w2 s d.
Proof.
  intros Hcwd Hfs. destruct s; simpl; try reflexivity.
  unfold navigate. rewrite !file_of_url_file. simpl.
  rewrite <- Hcwd, (Hfs (url_file (abspath (cwd w1) path))); [done |].
  simpl. set_solver.
Qed.

Lemma documents_cons (dir : string) (s : Step) (ss : list Step) :
  documents dir (s :: ss) = (documents dir [s] ++ documents dir ss)%list.
Proof. by destruct s. Qed.

Lemma exec_agree (w1 w2 : World) (ss : list Step) :
  cwd w1 = cwd w2 →
  (∀ p, p ∈ documents (cwd w1) ss → fs w1 !! p = fs w2 !! p) →
  ∀ i d, exec w1 i ss d = exec w2 i ss d.
Proof.
  intros Hcwd. induction ss as [|s ss IH]; intros Hfs i d; [done |].
  rewrite documents_cons in Hfs. simpl.
  rewrite (step_agree w1 w2) by (try done; intros p Hp; apply Hfs; set_solver).
  destruct (step w2 s d); [|done].
  apply IH. intros p Hp. apply Hfs. set_solver.
Qed.

Lemma exec_same_files (w1 w2 : World) (ss : list Step) (i : nat) (d : Doc) :
  cwd w1 = cwd w2 → fs w1 = fs w2 → exec w1 i ss d = exec w2 i ss d.
Proof. intros Hc Hf. apply exec_agree; [done |]. intros. by rewrite Hf. Qed.

(** ** Runs of a list of steps *)

Lemma exec_app (w : World) (a b : list Step) (i : nat) (d : Doc) :
  exec w i (a ++ b)%list d =
  match exec w i a d with
  | Ok d' => exec w (i + length a) b d'
  | Err e => Err e
  end.
Proof.
  revert i d. induction a as [|s a IH]; intros i d; simpl.
  - by rewrite Nat.add_0_r.
  - destruct (step w s d); [|done]. rewrite IH.
    by replace (S i + length a)%nat with (i + S (length a))%nat by lia.
Qed.

(** The number reported with a failure is that of the call that failed,
    and every call before it went through. *)
Lemma exec_failure (w : World) (ss : list Step) (i j : nat) (d : Doc) (e : Error) :
  exec w i ss d = Err (j, e) →
  ∃ k s d', j = (i + k)%nat ∧ ss !! k = Some s ∧
            exec w i (take k ss) d = Ok d' ∧ step w s d' = Err e.
Proof.
  revert i d. induction ss as [|s ss IH]; intros i d; simpl; [done |].
  destruct (step w s d) as [d'|e'] eqn:Hs.
  - intros (k & s' & d'' & -> & Hk & Hpre & Hfail)%IH.
    exists (S k), s', d''. simpl. rewrite Hs. split_and!; [lia | done..].
  - intros [= <- <-]. exists 0%nat, s, d. simpl. split_and!; [lia | done..].
Qed.

(** A call that fails after the calls before it went through ends the
    run, whatever calls come after it. *)
Lemma exec_fails (w : World) (ss : list Step) (i k : nat) (s : Step) (d d' : Doc) (e : Error) :
  ss !! k = Some s → exec w i (take k ss) d = Ok d' → step w s d' = Err e →
  exec w i ss d = Err ((i + k)%nat, e).
Proof.
  intros Hk Hpre Hs.
  rewrite <- (take_drop_middle ss k s Hk), exec_app, Hpre.
  simpl. rewrite Hs. do 2 f_equal.
  rewrite length_take. apply lookup_lt_Some in Hk. lia.
Qed.

(** Once a call has failed, the calls after it do not matter. *)
Lemma exec_failure_rest (w : World) (ss rest : list Step) (i k : nat) (d : Doc) (e : Error) :
  exec w i ss d = Err ((i + k)%nat, e) →
  exec w i (take (S k) ss ++ rest)%list d = Err ((i + k)%nat, e).
Proof.
  revert i k d. induction ss as [|s ss IH]; intros i k d; simpl; [done |].
  destruct (step w s d) as [d'|e'] eqn:Hs.
  - destruct k as [|k].
    + intros (k' & _ & _ & Hk & _)%exec_failure. lia.
    + replace (i + S k)%nat with (S i + k)%nat by lia. intros H.
      simpl. by apply IH.
  - done.
Qed.

Lemma exec_ok_length (w : World) (ss : list Step) (i j : nat) (d : Doc) (e : Error) :
  exec w i ss d = Err (j, e) → (i ≤ j < i + length ss)%nat.
Proof.
  intros (k & s & d' & -> & Hk & _)%exec_failure.
  apply lookup_lt_Some in Hk. lia.
Qed.

End RunnerFacts.

Section MainFacts.
Context `{B : Browser}.

(** ** What [main] comes to *)

(** The session and the browser opened by [main] are gone when it returns,
    so that a run is its steps, then the screenshot. *)
Lemma main_unfold (sc : Scenario) (w : World) :
  main sc w =
  match exec w 0 (steps sc) blank with
  | Err e => (Err e, w)
  | Ok d => (Ok (), set_fs (<[join (cwd w) (artifact sc) := capture true d]> (fs w)) w)
  end.
Proof.
  unfold main, body.
  rewrite (exec_same_files (launch (sync_playwright_enter w)) w)
    by (by destruct w).
  destruct (exec w 0 (steps sc) blank) as [d|e].
  - unfold screenshot. cbn zeta.
    replace (cwd (launch (sync_playwright_enter w))) with (cwd w) by (by destruct w).
    replace (fs (launch (sync_playwright_enter w))) with (fs w) by (by destruct w).
    by rewrite exit_close_launch_enter.
  - by rewrite exit_launch_enter.
Qed.

(** What the body of the [with] block leaves behind: after a success the
    browser has been closed by [browser.close()], after a failure that call
    has not been reached and the browser launched is still alive. *)
Lemma body_resources (sc : Scenario) (w : World) :
  let w' := (body sc (sync_playwright_enter w)).2 in
  match exec w 0 (steps sc) blank with
  | Ok _ => browsers w' = browsers w ∧ sessions w' = 0%nat :: sessions w
  | Err _ => browsers w' = S (browsers w) ∧ sessions w' = 1%nat :: sessions w
             ∧ fs w' = fs w
  end.
Proof.
  unfold body.
  rewrite (exec_same_files (launch (sync_playwright_enter w)) w)
    by (by destruct w).
  destruct (exec w 0 (steps sc) blank) as [d|e]; by destruct w.
Qed.

(** Release on every path: the browsers and the sessions after [main] are
    those before. *)
Lemma main_releases (sc : Scenario) (w : World) :
  sessions (main sc w).2 = sessions w.
Proof. rewrite main_unfold. by destruct (exec w 0 (steps sc) blank). Qed.

Lemma main_browsers (sc : Scenario) (w : World) :
  browsers (main sc w).2 = browsers w.
Proof. rewrite main_unfold. by destruct (exec w 0 (steps sc) blank). Qed.

Lemma main_cwd (sc : Scenario) (w : World) : cwd (main sc w).2 = cwd w.
Proof. rewrite main_unfold. by destruct (exec w 0 (steps sc) blank). Qed.

(** A failed run leaves the world as it found it. *)
Lemma main_failure_world (sc : Scenario) (w : World) (f : Failure) :
  (main sc w).1 = Err f → (main sc w).2 = w.
Proof. rewrite main_unfold. by destruct (exec w 0 (steps sc) blank). Qed.

Lemma main_failure_step (sc : Scenario) (w : World) (i : nat) (e : Error) :
  (main sc w).1 = Err (i, e) → fails_at sc w i e.
Proof.
  rewrite main_unfold. unfold fails_at.
  destruct (exec w 0 (steps sc) blank) as [d|[j e']] eqn:Hex; [done |].
  intros [= -> ->].
  apply exec_failure in Hex as (k & s & d' & -> & Hk & Hpre & Hs).
  by exists s, d'.
Qed.

(** A call that fails is where the run ends. *)
Lemma main_fails (sc : Scenario) (w : World) (i : nat) (e : Error) :
  fails_at sc w i e → main sc w = (Err (i, e), w).
Proof.
  intros (s & d & Hi & Hpre & Hs). rewrite main_unfold.
  by rewrite (exec_fails w (steps sc) 0 i s blank d e).
Qed.

Lemma main_failure_rest (sc : Scenario) (w : World) (i : nat) (e : Error) (rest : list Step) :
  (main sc w).1 = Err (i, e) →
  main (with_rest sc (S i) rest) w = main sc w.
Proof.
  rewrite !main_unfold. simpl.
  destruct (exec w 0 (steps sc) blank) as [d|[j e']] eqn:Hex; [done |].
  intros [= -> ->].
  pose proof (exec_failure_rest w (steps sc) rest 0 i blank e Hex) as Hr.
  cbn [Nat.add] in Hr. by rewrite Hr.
Qed.

(** Every run either goes through all its calls or fails at one of
    them. *)
Lemma main_cases (sc : Scenario) (w : World) :
  (∃ d, exec w 0 (steps sc) blank = Ok d) ∨ (∃ i e, fails_at sc w i e).
Proof.
  destruct (exec w 0 (steps sc) blank) as [d|[i e]] eqn:Hex.
  - left. by exists d.
  - right. exists i, e. apply main_failure_step. by rewrite main_unfold, Hex.
Qed.

(** The failing call of a run is determined. *)
Lemma fails_at_unique (sc : Scenario) (w : World) (i j : nat) (e e' : Error) :
  fails_at sc w i e → fails_at sc w j e' → i = j ∧ e = e'.
Proof.
  intros H1%main_fails H2%main_fails. rewrite H1 in H2. by injection H2.
Qed.

End MainFacts.

(** On a page that lacks the last section, the page-structure script goes
    through six calls and fails at the assertion on the fifth heading, call
    number 6. *)
Lemma page_structure_fails_on_broken_page :
  @fails_at static_page verify_page_structure (static_world broken_html) 6
    (AssertionTimeout (heading "Layout & Structure")).
Proof.
  exists (expect_to_be_visible (heading "Layout & Structure")), broken_html.
  split_and!; vm_compute; reflexivity.
Qed.

Lemma page_structure_succeeds :
  @exec static_page (static_world structure_html) 0 (steps verify_page_structure) blank
  = Ok structure_html.
Proof. vm_compute. reflexivity. Qed.

(** ** C1: a failing step ends the run, nothing is written, the browser is released *)

(** C1.  When the calls before call [i] succeed and call [i] fails, the run
    ends there: it returns the failure of call [i], and the state is the
    one before the run, so that no image has been written and no browser
    and no session is left.  The calls after [i] are not made: with any
    other calls in their place the run is the same.  [browser.close()] is
    not reached, the browser launched is alive at the end of the body of
    the [with] block, with nothing written, and leaving the block ends it.
    A run whose calls all succeed has closed its browser at the end of the
    body, and leaves as many browsers and the same sessions as the failed
    one. *)
Theorem failure_aborts_and_releases `{B : Browser}
    (sc : Scenario) (w : World) (i : nat) (e : Error) :
  fails_at sc w i e →
  main sc w = (Err (i, e), w) ∧
  (∀ rest, main (with_rest sc (S i) rest) w = (Err (i, e), w)) ∧
  (browsers (body sc (sync_playwright_enter w)).2 = S (browsers w) ∧
   fs (body sc (sync_playwright_enter w)).2 = fs w ∧
   sync_playwright_exit (body sc (sync_playwright_enter w)).2 = w) ∧
  (∀ sc' d, exec w 0 (steps sc') blank = Ok d →
     browsers (body sc' (sync_playwright_enter w)).2 = browsers w ∧
     browsers (main sc' w).2 = browsers w ∧
     sessions (main sc' w).2 = sessions w).
Proof.
  intros Hfail. pose proof (main_fails sc w i e Hfail) as Hmain.
  split_and!.
  - exact Hmain.
  - intros rest. rewrite (main_failure_rest sc w i e rest); [done | by rewrite Hmain].
  - pose proof (body_resources sc w) as Hbody.
    rewrite main_unfold in Hmain.
    destruct (exec w 0 (steps sc) blank); [done |]. apply Hbody.
  - pose proof (body_resources sc w) as Hbody.
    rewrite main_unfold in Hmain.
    destruct (exec w 0 (steps sc) blank); [done |]. apply Hbody.
  - unfold main in Hmain.
    destruct (body sc (sync_playwright_enter w)) as [r w']. simpl.
    by injection Hmain.
  - intros sc' d Hok. pose proof (body_resources sc' w) as Hbody.
    rewrite Hok in Hbody. split_and!.
    + apply Hbody.
    + apply main_browsers.
    + apply main_releases.
Qed.

(** The page-structure script on a page that lacks the last section. *)
Lemma failure_aborts_and_releases_witness :
  let w := static_world broken_html in
  main verify_page_structure w
    = (Err (6%nat, AssertionTimeout (heading "Layout & Structure")), w) ∧
  browsers (body verify_page_structure (sync_playwright_enter w)).2 = S (browsers w).
Proof.
  intros w.
  destruct (@failure_aborts_and_releases static_page verify_page_structure w 6
              (AssertionTimeout (heading "Layout & Structure"))
              page_structure_fails_on_broken_page)
    as (Hmain & _ & (Hbrowser & _) & _).
  exact (conj Hmain Hbrowser).
Defined.

(** ** C4: a successful run writes its one image and nothing else *)



(** ** C7: the exit status of a script *)

(** C7.  A script whose calls all succeed exits with status 0 and prints
    nothing.  A script of which a call fails exits with status 1 and prints
    one traceback, which names the file of the script and the number of the
    call that failed, with its error.  Every run is one or the other. *)
Theorem exit_status_reports_the_run `{B : Browser} (sc : Scenario) (w : World) :
  (∀ d, exec w 0 (steps sc) blank = Ok d →
        exit_code (run_script sc w).1 = 0 ∧ stderr (run_script sc w).1 = []) ∧
  (∀ i e, fails_at sc w i e →
          exit_code (run_script sc w).1 = 1 ∧
          exit_code (run_script sc w).1 ≠ 0 ∧
          stderr (run_script sc w).1
            = [ {| tb_file := script sc; tb_step := i; tb_error := e |} ]) ∧
  ((∃ d, exec w 0 (steps sc) blank = Ok d) ∨ (∃ i e, fails_at sc w i e)).
Proof.
  split_and!.
  - intros d Hok. unfold run_script. by rewrite main_unfold, Hok.
  - intros i e Hfail. unfold run_script. by rewrite (main_fails sc w i e Hfail).
  - apply main_cases.
Qed.

(** The page-structure script on the page with five sections, and on the
    page that lacks the last one. *)
Lemma exit_status_reports_the_run_witness :
  exit_code (@run_script static_page verify_page_structure
               (static_world structure_html)).1 = 0 ∧
  (exit_code (@run_script static_page verify_page_structure
                (static_world broken_html)).1 ≠ 0 ∧
   stderr (@run_script static_page verify_page_structure
             (static_world broken_html)).1
     = [ {| tb_file := "verify_page_structure.py"; tb_step := 6;
            tb_error := AssertionTimeout (heading "Layout & Structure") |} ]).
Proof.
  split.
  - destruct (@exit_status_reports_the_run static_page verify_page_structure
                (static_world structure_html)) as (Hok & _ & _).
    apply (Hok structure_html page_structure_succeeds).
  - destruct (@exit_status_reports_the_run static_page verify_page_structure
                (static_world broken_html)) as (_ & Hfail & _).
    destruct (Hfail 6%nat (AssertionTimeout (heading "Layout & Structure"))
                page_structure_fails_on_broken_page) as (_ & Hne & Herr).
    exact (conj Hne Herr).
Defined.

(** ** C2: the artifact paths of the scripts *)

Lemma in_all_scripts (sc : Scenario) :
  sc ∈ all_scripts →
  sc = verify_all_components ∨ sc = verify_components ∨
  sc = verify_display_components ∨ sc = verify_full_library ∨
  sc = verify_full_library_final ∨ sc = verify_full_library_final_v2 ∨
  sc = verify_full_library_final_v3 ∨ sc = verify_layout_components ∨
  sc = verify_page_structure.
Proof. unfold all_scripts. rewrite !elem_of_cons, elem_of_nil. tauto. Qed.

Ltac each_script H :=
  apply in_all_scripts in H;
  destruct H as [->|[->|[->|[->|[->|[->|[->|[->| ->]]]]]]]].

(** Membership in a list of scripts or of calls, by comparing them. *)
Ltac script_in_list := apply (bool_decide_unpack _); vm_compute; exact I.

(** C2, as stated, fails: the first two variants of the full-library script
    are different scripts and save their screenshot under the same path. *)
Lemma artifact_not_unique : ¬ artifact_unique all_scripts.
Proof.
  intros H.
  specialize (H verify_full_library verify_full_library_final).
  assert (Heq : verify_full_library = verify_full_library_final).
  { apply H; [script_in_list | script_in_list | reflexivity]. }
  apply (f_equal script) in Heq. discriminate Heq.
Qed.

(** C2, amended.  Two scripts of the directory that save their screenshot
    under the same path are the same script or are both variants of the
    full-library script; and the four variants do share one path. *)
Theorem artifact_unique_up_to_variants (a b : Scenario) :
  a ∈ all_scripts → b ∈ all_scripts →
  artifact a = artifact b →
  a = b ∨ (a ∈ full_library_variants ∧ b ∈ full_library_variants ∧
           artifact a = "jules-scratch/verification/verification_final.png").
Proof.
  intros Ha Hb.
  each_script Ha; each_script Hb; intros Heq;
    first [ left; reflexivity
          | discriminate Heq
          | right; split_and!; [script_in_list | script_in_list | reflexivity] ].
Qed.

Lemma artifact_unique_up_to_variants_witness :
  verify_full_library_final_v2 = verify_full_library_final_v3 ∨
  (verify_full_library_final_v2 ∈ full_library_variants ∧
   verify_full_library_final_v3 ∈ full_library_variants ∧
   artifact verify_full_library_final_v2
     = "jules-scratch/verification/verification_final.png").
Proof.
  apply (artifact_unique_up_to_variants
           verify_full_library_final_v2 verify_full_library_final_v3).
  - script_in_list.
  - script_in_list.
  - reflexivity.
Defined.

(** ** C3: what the fixed waits are for *)

(** C3, as stated, fails: in the second variant of the full-library script
    call number 9 waits 200 ms and call number 10 is the assertion that the
    tooltip is gone, a condition that is polled. *)
Lemma wait_stands_for_polled_condition :
  verify_full_library_final_v2 ∈ all_scripts ∧
  steps verify_full_library_final_v2 !! 9%nat = Some (wait_for_timeout 200) ∧
  waits_for_polled_condition (steps verify_full_library_final_v2) 9 = true ∧
  ¬ (∀ sc i, sc ∈ all_scripts → waits_for_polled_condition (steps sc) i = false).
Proof.
  assert (Hin : verify_full_library_final_v2 ∈ all_scripts) by script_in_list.
  split_and!; [exact Hin | reflexivity | reflexivity |].
  intros H. specialize (H verify_full_library_final_v2 9%nat Hin). discriminate H.
Qed.

(** C3, amended.  A fixed wait of a script is either its last call, made
    right before the screenshot and 1000 ms long, or one of the two 200 ms
    waits of the second variant of the full-library script, each followed by
    the assertion that an element is no longer visible; the third variant
    of the script makes a polling assertion on the opacity of that same
    element instead. *)
Theorem waits_settle_or_precede_assertion (sc : Scenario) (i : nat) (ms : Z) :
  sc ∈ all_scripts →
  steps sc !! i = Some (wait_for_timeout ms) →
  (S i = length (steps sc) ∧ ms = 1000 ∧
   waits_for_polled_condition (steps sc) i = false)
  ∨
  (sc = verify_full_library_final_v2 ∧ ms = 200 ∧
   ∃ l, steps sc !! S i = Some (expect_not_to_be_visible l) ∧
        expect_to_have_css l "opacity" "0" ∈ steps verify_full_library_final_v3).
Proof.
  intros Hsc Hi. each_script Hsc;
    repeat (cbn in Hi; first [discriminate Hi | destruct i as [|i]]).
  all: injection Hi as <-.
  all: first [ left; split_and!; reflexivity
             | right; split_and!; [reflexivity | reflexivity |];
               eexists; split; [reflexivity | script_in_list] ].
Qed.

Lemma waits_settle_or_precede_assertion_witness :
  steps verify_full_library_final_v2 !! 10%nat
    = Some (expect_not_to_be_visible (get_by_text page "This is a tooltip!")) ∧
  ((10%nat = length (steps verify_full_library_final_v2) ∧ (200:Z) = 1000 ∧
    waits_for_polled_condition (steps verify_full_library_final_v2) 9 = false)
   ∨
   (verify_full_library_final_v2 = verify_full_library_final_v2 ∧ (200:Z) = 200 ∧
    ∃ l, steps verify_full_library_final_v2 !! 10%nat = Some (expect_not_to_be_visible l) ∧
         expect_to_have_css l "opacity" "0" ∈ steps verify_full_library_final_v3)).
Proof.
  split; [reflexivity |].
  apply (waits_settle_or_precede_assertion verify_full_library_final_v2 9 200).
  - script_in_list.
  - reflexivity.
Defined.

(** ** C6: the polling assertion on a style property *)

Section Polling.
Context `{B : Browser}.

Lemma after_S (k : nat) (d : Doc) :
  after (S k) d = after k (elapse poll_interval d).
Proof. unfold after. by rewrite Nat.iter_succ_r. Qed.

(** [poll] returns the page at the first poll at which the condition
    holds. *)
Lemma poll_Some (n : nat) (cond : Doc → bool) (d d' : Doc) :
  poll n cond d = Some d' ↔
  ∃ k, (k ≤ n)%nat ∧ d' = after k d ∧ cond (after k d) = true ∧
       ∀ j, (j < k)%nat → cond (after j d) = false.
Proof.
  revert d. induction n as [|n IH]; intros d; simpl.
  - destruct (cond d) eqn:Hc; split.
    + intros [= <-]. exists 0%nat. split_and!; [lia | done | done | lia].
    + intros (k & Hk & -> & _). by replace k with 0%nat by lia.
    + done.
    + intros (k & Hk & _ & Hck & _). replace k with 0%nat in Hck by lia.
      simpl in Hck. congruence.
  - destruct (cond d) eqn:Hc; split.
    + intros [= <-]. exists 0%nat. split_and!; [lia | done | done | lia].
    + intros (k & Hk & -> & Hck & Hlt). destruct k as [|k]; [done |].
      specialize (Hlt 0%nat ltac:(lia)). simpl in Hlt. congruence.
    + intros (k & Hk & -> & Hck & Hlt)%IH. exists (S k).
      rewrite after_S. split_and!; [lia | done | done |].
      intros [|j] Hj; [done |]. rewrite after_S. apply Hlt. lia.
    + intros (k & Hk & -> & Hck & Hlt). destruct k as [|k].
      { simpl in Hck. congruence. }
      apply IH. exists k. rewrite after_S in Hck |- *.
      split_and!; [lia | done | done |].
      intros j Hj. specialize (Hlt (S j) ltac:(lia)). by rewrite after_S in Hlt.
Qed.

(** [poll] gives up exactly when the condition holds at none of its
    polls. *)
Lemma poll_None (n : nat) (cond : Doc → bool) (d : Doc) :
  poll n cond d = None ↔ ∀ k, (k ≤ n)%nat → cond (after k d) = false.
Proof.
  revert d. induction n as [|n IH]; intros d; simpl.
  - destruct (cond d) eqn:Hc; split; try done.
    + intros H. specialize (H 0%nat ltac:(lia)). simpl in H. congruence.
    + intros _ k Hk. by replace k with 0%nat by lia.
  - destruct (cond d) eqn:Hc; split; try done.
    + intros H. specialize (H 0%nat ltac:(lia)). simpl in H. congruence.
    + intros Hn [|k] Hk; [done |]. rewrite after_S.
      apply (proj1 (IH _) Hn). lia.
    + intros H. apply IH. intros k Hk.
      specialize (H (S k) ltac:(lia)). by rewrite after_S in H.
Qed.

Lemma has_css_true (l : Locator) (name value : string) (d : Doc) :
  has_css l name value d = true ↔ computed_style l name d = Some value.
Proof. unfold has_css. by rewrite bool_decide_eq_true. Qed.

Lemma has_css_false (l : Locator) (name value : string) (d : Doc) :
  has_css l name value d = false ↔ computed_style l name d ≠ Some value.
Proof. unfold has_css. by rewrite bool_decide_eq_false. Qed.

Lemma poll_css_Some (n : nat) (l : Locator) (name value : string) (d d' : Doc) :
  poll n (has_css l name value) d = Some d' ↔
  ∃ k, (k ≤ n)%nat ∧ d' = after k d ∧
       computed_style l name (after k d) = Some value ∧
       ∀ j, (j < k)%nat → computed_style l name (after j d) ≠ Some value.
Proof.
  rewrite poll_Some. split; intros (k & Hk & Hd & Hc & Hlt); exists k.
  - split_and!; [done | done | by apply has_css_true |].
    intros j Hj. apply has_css_false. by apply Hlt.
  - split_and!; [done | done | by apply has_css_true |].
    intros j Hj. apply has_css_false. by apply Hlt.
Qed.

Lemma poll_css_None (n : nat) (l : Locator) (name value : string) (d : Doc) :
  poll n (has_css l name value) d = None ↔
  ∀ k, (k ≤ n)%nat → computed_style l name (after k d) ≠ Some value.
Proof.
  rewrite poll_None. split; intros H k Hk.
  - apply has_css_false. by apply H.
  - apply has_css_false. by apply H.
Qed.

(** C6.  The assertion [to_have_css(name, value)] on a locator succeeds, on
    the page [d'], exactly when some poll within the timeout finds the
    computed value of the property equal to [value], [d'] being the page at
    the first such poll; and it fails, with the timeout error of an
    assertion, exactly when no poll within the timeout finds them equal. *)
Theorem css_assertion_polls_until_equal
    (w : World) (l : Locator) (name value : string) (d : Doc) :
  (∀ d', step w (expect_to_have_css l name value) d = Ok d' ↔
         ∃ k, (k ≤ expect_polls)%nat ∧ d' = after k d ∧
              computed_style l name (after k d) = Some value ∧
              ∀ j, (j < k)%nat → computed_style l name (after j d) ≠ Some value) ∧
  (step w (expect_to_have_css l name value) d = Err (AssertionTimeout l) ↔
   ∀ k, (k ≤ expect_polls)%nat → computed_style l name (after k d) ≠ Some value) ∧
  (∀ e, step w (expect_to_have_css l name value) d = Err e → e = AssertionTimeout l).
Proof.
  simpl. unfold expect. split_and!.
  - intros d'. rewrite <- poll_css_Some.
    destruct (poll expect_polls (has_css l name value) d);
      split; intros [= ->]; done.
  - rewrite <- poll_css_None.
    destruct (poll expect_polls (has_css l name value) d); done.
  - intros e. destruct (poll expect_polls (has_css l name value) d); [done |].
    by intros [= <-].
Qed.

End Polling.

(** An element with 150 ms of fading left: the first two polls read an
    opacity other than 0, the third reads 0. *)
Lemma css_assertion_polls_until_equal_witness :
  let w : @World fading_page := world_of repo_root ∅ in
  @step fading_page w (expect_to_have_css page "opacity" "0") 150 = Ok 0 ∧
  @computed_style fading_page page "opacity" 150 ≠ Some "0".
Proof.
  intros w.
  destruct (@css_assertion_polls_until_equal fading_page w page "opacity" "0" 150)
    as (Hok & _ & _).
  split.
  - apply Hok. exists 2%nat. split_and!.
    + vm_compute. lia.
    + reflexivity.
    + reflexivity.
    + intros [|[|j]] Hj; [discriminate | discriminate | lia].
  - discriminate.
Defined.

(** ** C9: an assertion that already holds changes nothing *)

(** C9.  On a page where the property has the expected value, the assertion
    [to_have_css] succeeds at its first poll and leaves the page as it is,
    however many times it is made in a row. *)
Theorem css_assertion_idempotent `{B : Browser}
    (w : World) (l : Locator) (name value : string) (d : Doc) (n : nat) :
  computed_style l name d = Some value →
  step w (expect_to_have_css l name value) d = Ok d ∧
  exec w 0 (replicate n (expect_to_have_css l name value)) d = Ok d.
Proof.
  intros Hv.
  assert (Hstep : step w (expect_to_have_css l name value) d = Ok d).
  { simpl. unfold expect.
    replace (poll expect_polls (has_css l name value) d) with (Some d); [done |].
    destruct expect_polls; simpl; by rewrite (proj2 (has_css_true l name value d) Hv). }
  split; [exact Hstep |].
  generalize 0%nat. induction n as [|n IH]; intros i; [done |].
  cbn [replicate exec]. rewrite Hstep. apply IH.
Qed.

(** The closed dialog has opacity 0; asserting so three times leaves it
    closed. *)
Lemma css_assertion_idempotent_witness :
  let dialog := get_by_role page "dialog" None false in
  @step dialog_page dialog_world (expect_to_have_css dialog "opacity" "0")
    (DialogDocument false) = Ok (DialogDocument false) ∧
  @exec dialog_page dialog_world 0
    (replicate 3 (expect_to_have_css dialog "opacity" "0")) (DialogDocument false)
  = Ok (DialogDocument false).
Proof.
  intros dialog.
  apply (@css_assertion_idempotent dialog_page dialog_world dialog "opacity" "0"
           (DialogDocument false) 3).
  reflexivity.
Defined.

(** ** C5: the dialog scenario *)

(** C5.  On the dialog page, where the dialog is hidden at first, the click
    on "Open Dialog" makes the dialog visible, the click on "Close" inside
    the dialog makes it not visible, and the six calls of the scenario run
    through without an error and end on a page where the dialog is not
    visible; the three last variants of the full-library script start with
    these six calls. *)
Theorem dialog_scenario_completes :
  let dialog := get_by_role page "dialog" None false in
  let close := get_by_role dialog "button" (Some "Close") false in
  let closed : @Doc dialog_page := DialogDocument false in
  let opened : @Doc dialog_page := DialogDocument true in
  dialog_scenario =
    [ goto index_html; set_viewport_size 1280 4000;
      click (button "Open Dialog"); expect_to_be_visible dialog;
      click close; expect_not_to_be_visible dialog ] ∧
  take 6 (steps verify_full_library_final) = dialog_scenario ∧
  take 6 (steps verify_full_library_final_v2) = dialog_scenario ∧
  @exec dialog_page dialog_world 0 (take 2 dialog_scenario) blank = Ok closed ∧
  @visible dialog_page dialog closed = false ∧
  @step dialog_page dialog_world (click (button "Open Dialog")) closed = Ok opened ∧
  @visible dialog_page dialog opened = true ∧
  @step dialog_page dialog_world (click close) opened = Ok closed ∧
  @exec dialog_page dialog_world 0 dialog_scenario blank = Ok closed ∧
  (@main dialog_page
     {| script := "verify_full_library_final_v3.py"; steps := dialog_scenario;
        artifact := artifact verify_full_library_final_v3 |} dialog_world).1 = Ok ().
Proof.
  intros dialog close closed opened.
  split_and!; vm_compute; reflexivity.
Qed.

(** ** C8: the order of two scripts *)

Section Order.
Context `{B : Browser}.

Lemma world_eq (w1 w2 : World) :
  cwd w1 = cwd w2 → fs w1 = fs w2 → browsers w1 = browsers w2 →
  sessions w1 = sessions w2 → w1 = w2.
Proof. destruct w1, w2. simpl. by intros -> -> -> ->. Qed.

(** A run is decided by the working directory and the documents its steps
    open. *)
Lemma outcome_agree (sc : Scenario) (w1 w2 : World) :
  cwd w1 = cwd w2 →
  (∀ p, p ∈ documents (cwd w1) (steps sc) → fs w1 !! p = fs w2 !! p) →
  outcome sc w1 = outcome sc w2.
Proof.
  intros Hcwd Hfs. unfold outcome. rewrite !main_unfold.
  rewrite (exec_agree w1 w2) by done. rewrite Hcwd.
  destruct (exec w2 0 (steps sc) blank) as [d|f]; [|done].
  simpl. by rewrite !lookup_insert_eq.
Qed.

(** The file system after a run, from its outcome. *)
Lemma main_fs (sc : Scenario) (w : World) :
  fs (main sc w).2 =
  match outcome sc w with
  | Ok (Some f) => <[join (cwd w) (artifact sc) := f]> (fs w)
  | _ => fs w
  end.
Proof.
  unfold outcome. rewrite main_unfold.
  destruct (exec w 0 (steps sc) blank) as [d|f]; [|done].
  simpl. by rewrite lookup_insert_eq.
Qed.

Lemma main_fs_other (sc : Scenario) (w : World) (p : string) :
  p ≠ join (cwd w) (artifact sc) → fs (main sc w).2 !! p = fs w !! p.
Proof.
  intros Hp. rewrite main_fs.
  destruct (outcome sc w) as [[f|]|]; [|done..]. by rewrite lookup_insert_ne.
Qed.

(** Two scripts of which neither saves its screenshot over a document the
    other opens do not see each other. *)
Lemma outcome_after (a b : Scenario) (w : World) :
  join (cwd w) (artifact b) ∉ documents (cwd w) (steps a) →
  outcome a (main b w).2 = outcome a w.
Proof.
  intros Hnot. apply outcome_agree.
  - apply main_cwd.
  - intros p Hp. rewrite main_cwd in Hp. apply main_fs_other.
    intros ->. contradiction.
Qed.

Lemma main_commute (a b : Scenario) (w : World) :
  join (cwd w) (artifact b) ∉ documents (cwd w) (steps a) →
  join (cwd w) (artifact a) ∉ documents (cwd w) (steps b) →
  join (cwd w) (artifact a) ≠ join (cwd w) (artifact b) →
  (main b (main a w).2).2 = (main a (main b w).2).2.
Proof.
  intros Hba Hab Hne. apply world_eq.
  - by rewrite !main_cwd.
  - rewrite (main_fs b), (main_fs a (main b w).2), !main_cwd.
    rewrite (outcome_after b a), (outcome_after a b) by done.
    rewrite (main_fs a w), (main_fs b w).
    destruct (outcome a w) as [[fa|]|], (outcome b w) as [[fb|]|]; try done.
    by apply insert_insert_ne.
  - by rewrite !main_browsers.
  - by rewrite !main_releases.
Qed.

End Order.

(** The scripts of the directory all open the one document and save their
    screenshot into the one directory. *)
Lemma script_documents (sc : Scenario) (dir : string) :
  sc ∈ all_scripts → documents dir (steps sc) = [url_file (abspath dir index_html)].
Proof. intros H. each_script H; reflexivity. Qed.


Lemma script_artifact (sc : Scenario) :
  sc ∈ all_scripts →
  ∃ name, artifact sc = "jules-scratch/verification/" +:+ name.
Proof. intros H. each_script H; eexists; reflexivity. Qed.

Lemma script_artifact_long (sc : Scenario) :
  sc ∈ all_scripts →
  String.prefix "/" (artifact sc) = false ∧
  (String.length index_html < String.length (artifact sc))%nat.
Proof. intros H. each_script H; split; first [reflexivity | cbn; lia]. Qed.

(** The file a script opens is never the file another script writes: read
    as a URL, the path of the document gets no longer, and every artifact
    path is longer than it. *)
Lemma script_artifact_not_document (a b : Scenario) (dir : string) :
  a ∈ all_scripts → b ∈ all_scripts →
  join dir (artifact b) ∉ documents dir (steps a).
Proof.
  intros Ha Hb. rewrite (script_documents a dir Ha).
  destruct (script_artifact_long b Hb) as [Hrel Hlong].
  rewrite list_elem_of_singleton. unfold abspath. intros Heq.
  apply (f_equal String.length) in Heq.
  pose proof (url_file_length (join dir index_html)) as Hurl.
  rewrite (join_relative_length dir (artifact b) Hrel) in Heq.
  rewrite (join_relative_length dir index_html) in Hurl by reflexivity.
  lia.
Qed.

(** C8.  For two scripts of the directory, run one after the other from
    any state, neither sees the other: each has the result, and on success
    leaves the image under its artifact path, that it has when run alone
    on the first state; and when their artifact paths differ, the state
    after both is the same in either order. *)
Theorem sibling_order_independent `{B : Browser} (a b : Scenario) (w : World) :
  a ∈ all_scripts → b ∈ all_scripts →
  outcome a (main b w).2 = outcome a w ∧
  outcome b (main a w).2 = outcome b w ∧
  (artifact a ≠ artifact b →
   (main b (main a w).2).2 = (main a (main b w).2).2).
Proof.
  intros Ha Hb. split_and!.
  - apply outcome_after. by apply script_artifact_not_document.
  - apply outcome_after. by apply script_artifact_not_document.
  - intros Hne. apply main_commute.
    + by apply script_artifact_not_document.
    + by apply script_artifact_not_document.
    + intros Heq. apply Hne.
      destruct (script_artifact a Ha) as [na Hna].
      destruct (script_artifact b Hb) as [nb Hnb].
      apply (join_relative_inj (cwd w)); [by rewrite Hna | by rewrite Hnb | done].
Qed.

(** Two of the scripts on the page with five sections: the first fails on
    its headings, the second succeeds, in either order. *)
Lemma sibling_order_independent_witness :
  let w := static_world structure_html in
  outcome verify_all_components (main verify_page_structure w).2
    = outcome verify_all_components w ∧
  outcome verify_page_structure (main verify_all_components w).2
    = outcome verify_page_structure w ∧
  (artifact verify_all_components ≠ artifact verify_page_structure →
   (main verify_page_structure (main verify_all_components w).2).2
   = (main verify_all_components (main verify_page_structure w).2).2).
Proof.
  intros w.
  apply (@sibling_order_independent static_page
           verify_all_components verify_page_structure w).
  - script_in_list.
  - script_in_list.
Defined.

(** ** C10: both paths hang on the working directory *)









(** * Further properties of the scripts *)

Section Reruns.
Context `{B : Browser}.

(** A run depends on the script through its calls and its artifact path
    alone. *)
Lemma main_ext (a b : Scenario) (w : World) :
  steps a = steps b → artifact a = artifact b → main a w = main b w.
Proof. intros Hs Ha. by rewrite !main_unfold, Hs, Ha. Qed.


(** A second run right after the first finds the document as the first
    found it, whatever the first wrote. *)
Lemma main_twice (sc : Scenario) (w : World) :
  join (cwd w) (artifact sc) ∉ documents (cwd w) (steps sc) →
  main sc (main sc w).2 = main sc w.
Proof.
  intros Hnot.
  assert (Hex : exec (main sc w).2 0 (steps sc) blank = exec w 0 (steps sc) blank).
  { apply exec_agree; [apply main_cwd |].
    intros p Hp. rewrite main_cwd in Hp. apply main_fs_other.
    intros ->. contradiction. }
  rewrite (main_unfold sc (main sc w).2), Hex, main_cwd.
  rewrite (main_unfold sc w).
  destruct (exec w 0 (steps sc) blank) as [d|f]; [|done].
  simpl. unfold set_fs. simpl. by rewrite insert_insert_eq.
Qed.

(** Two scripts of the directory with different artifact paths can be run
    in either order. *)
Lemma scripts_commute (a b : Scenario) (w : World) :
  a ∈ all_scripts → b ∈ all_scripts → artifact a ≠ artifact b →
  (main b (main a w).2).2 = (main a (main b w).2).2.
Proof.
  intros Ha Hb Hne. apply main_commute.
  - by apply script_artifact_not_document.
  - by apply script_artifact_not_document.
  - intros Heq. apply Hne.
    destruct (script_artifact a Ha) as [na Hna].
    destruct (script_artifact b Hb) as [nb Hnb].
    apply (join_relative_inj (cwd w)); [by rewrite Hna | by rewrite Hnb | done].
Qed.

End Reruns.

(** X1.  Running a script of the directory a second time, from the state
    its first run left, gives the same result and leaves that state as it
    is: the script reads nothing of what it wrote, and a second image
    replaces the first under the same path. *)
Theorem rerun_changes_nothing `{B : Browser} (sc : Scenario) (w : World) :
  sc ∈ all_scripts →
  main sc (main sc w).2 = main sc w.
Proof.
  intros Hsc. apply main_twice. by apply script_artifact_not_document.
Qed.

Lemma rerun_changes_nothing_witness :
  let w := static_world structure_html in
  main verify_page_structure (main verify_page_structure w).2
  = main verify_page_structure w.
Proof.
  intros w. apply (@rerun_changes_nothing static_page verify_page_structure w).
  script_in_list.
Defined.



(** ** Scripts that only look at the page *)

Section ViewOnly.
Context `{B : Browser}.

Lemma poll_untouched (n : nat) (cond : Doc → bool) (d0 d d' : Doc) :
  untouched d0 d → poll n cond d = Some d' → untouched d0 d'.
Proof.
  revert d. induction n as [|n IH]; intros d Hd; simpl.
  - destruct (cond d); [by intros [= <-] | done].
  - destruct (cond d); [by intros [= <-] |].
    apply IH. by constructor.
Qed.

Lemma expect_untouched (l : Locator) (cond : Doc → bool) (d0 d d' : Doc) :
  untouched d0 d → expect l cond d = Ok d' → untouched d0 d'.
Proof.
  intros Hd. unfold expect.
  destruct (poll expect_polls cond d) as [d1|] eqn:Hp; [|done].
  intros [= <-]. by apply (poll_untouched expect_polls cond d0 d).
Qed.

Lemma step_untouched (w : World) (s : Step) (d0 d d' : Doc) :
  interacts s = false → untouched d0 d → step w s d = Ok d' → untouched d0 d'.
Proof.
  intros Hs Hd. destruct s; try discriminate Hs; simpl.
  - unfold navigate. destruct (file_of_url _ ≫= _) as [f|]; [|done].
    intros [= <-]. by constructor.
  - intros [= <-]. by constructor.
  - by apply expect_untouched.
  - by apply expect_untouched.
  - by apply expect_untouched.
  - intros [= <-]. by constructor.
Qed.

Lemma exec_untouched (w : World) (ss : list Step) (i : nat) (d0 d d' : Doc) :
  forallb (λ s, negb (interacts s)) ss = true →
  untouched d0 d → exec w i ss d = Ok d' → untouched d0 d'.
Proof.
  revert i d. induction ss as [|s ss IH]; intros i d Hall Hd; simpl.
  - by intros [= <-].
  - simpl in Hall. apply andb_true_iff in Hall as [Hs Hall].
    apply negb_true_iff in Hs.
    destruct (step w s d) as [d1|e] eqn:Hstep; [|done].
    apply IH; [done |]. by apply (step_untouched w s d0 d).
Qed.

End ViewOnly.

(** The scripts without a click or a hover are the four of
    [view_only_scripts]. *)
Lemma view_only_scripts_spec (sc : Scenario) :
  sc ∈ all_scripts →
  (forallb (λ s, negb (interacts s)) (steps sc) = true ↔ sc ∈ view_only_scripts).
Proof.
  intros Hsc. each_script Hsc; split; intros H;
    first [ reflexivity | script_in_list | discriminate H
          | exfalso; revert H; apply (bool_decide_eq_false_1 _); vm_compute; reflexivity ].
Qed.

(** X4.  The scripts for the components page, the display section, the
    layout section and the page structure make no click and no hover: the
    page whose image a successful run of one of them saves has been reached
    from the new page by navigation, resizing and waiting alone. *)
Theorem view_only_scripts_do_not_interact `{B : Browser}
    (sc : Scenario) (w w' : World) :
  sc ∈ view_only_scripts →
  main sc w = (Ok (), w') →
  ∃ d, untouched blank d ∧
       fs w' !! join (cwd w) (artifact sc) = Some (capture true d).
Proof.
  intros Hsc Hmain.
  assert (Hall : forallb (λ s, negb (interacts s)) (steps sc) = true).
  { unfold view_only_scripts in Hsc.
    rewrite !elem_of_cons, elem_of_nil in Hsc.
    destruct Hsc as [->|[->|[->|[->|[]]]]]; reflexivity. }
  rewrite main_unfold in Hmain.
  destruct (exec w 0 (steps sc) blank) as [d|f] eqn:Hex; [|done].
  injection Hmain as <-. exists d. split.
  - apply (exec_untouched w (steps sc) 0 blank blank d Hall); [constructor | done].
  - simpl. apply lookup_insert_eq.
Qed.

Lemma view_only_scripts_do_not_interact_witness :
  let w := static_world structure_html in
  ∃ d, @untouched static_page blank d ∧
       fs (main verify_page_structure w).2
         !! join (cwd w) (artifact verify_page_structure)
       = Some (capture true d).
Proof.
  intros w.
  assert (H : (main verify_page_structure w).1 = Ok ()) by (vm_compute; reflexivity).
  apply (@view_only_scripts_do_not_interact static_page verify_page_structure w).
  - script_in_list.
  - rewrite <- H. apply surjective_pairing.
Defined.

(** ** The variants of the full-library script *)

(** A failure within the calls two scripts have in common is the failure
    of both. *)
Lemma common_prefix_failure `{B : Browser}
    (a b : Scenario) (n i : nat) (e : Error) (w : World) :
  take n (steps a) = take n (steps b) → artifact a = artifact b →
  (n ≤ length (steps a))%nat → (i < n)%nat →
  (main a w).1 = Err (i, e) → main b w = main a w.
Proof.
  intros Htake Hart Hn Hi Hfail.
  rewrite <- (main_failure_rest a w i e (drop (S i) (steps b)) Hfail).
  apply main_ext; [|exact (eq_sym Hart)].
  simpl. rewrite <- (take_drop (S i) (steps b)) at 1. f_equal.
  assert (Hmin : (S i `min` n = S i)%nat) by lia.
  rewrite <- Hmin, <- !take_take. by rewrite Htake.
Qed.

(** X5.  The four variants of the full-library script begin with the same
    four calls, and the three later ones with the same eight: a run of one
    of them that fails within these calls fails at the same call, with the
    same error and the same final state, for each of the others. *)
Theorem variants_fail_alike `{B : Browser}
    (a b : Scenario) (w : World) (i : nat) (e : Error) :
  (main a w).1 = Err (i, e) →
  (a ∈ full_library_variants → b ∈ full_library_variants →
   (i < 4)%nat → main b w = main a w) ∧
  (a ∈ final_variants → b ∈ final_variants →
   (i < 8)%nat → main b w = main a w).
Proof.
  intros Hfail. split; intros Ha Hb Hi.
  - apply (common_prefix_failure a b 4 i e); try done;
      unfold full_library_variants in Ha, Hb;
      rewrite !elem_of_cons, elem_of_nil in Ha, Hb;
      destruct Ha as [->|[->|[->|[->|[]]]]];
      destruct Hb as [->|[->|[->|[->|[]]]]];
      first [reflexivity | simpl; lia].
  - apply (common_prefix_failure a b 8 i e); try done;
      unfold final_variants in Ha, Hb;
      rewrite !elem_of_cons, elem_of_nil in Ha, Hb;
      destruct Ha as [->|[->|[->|[]]]];
      destruct Hb as [->|[->|[->|[]]]];
      first [reflexivity | simpl; lia].
Qed.

(** On the page with five sections there is no "Open Dialog" button: the
    click, call number 2, times out in every variant. *)
Lemma variants_fail_alike_witness :
  let w := static_world structure_html in
  (main verify_full_library w).1 = Err (2%nat, ActionTimeout (button "Open Dialog")) ∧
  main verify_full_library_final_v3 w = main verify_full_library w.
Proof.
  intros w.
  assert (H : (main verify_full_library w).1
              = Err (2%nat, ActionTimeout (button "Open Dialog")))
    by (vm_compute; reflexivity).
  split; [exact H |].
  destruct (@variants_fail_alike static_page verify_full_library
              verify_full_library_final_v3 w 2 (ActionTimeout (button "Open Dialog")) H)
    as [Hfour _].
  apply Hfour; [script_in_list | script_in_list | lia].
Defined.

(** ** Scripts run one after the other, in any order *)

Section Sequences.
Context `{B : Browser}.

Lemma run_all_cons (sc : Scenario) (l : list Scenario) (w : World) :
  run_all (sc :: l) w = run_all l (main sc w).2.
Proof. reflexivity. Qed.

End Sequences.

(** X7.  Scripts of the directory with pairwise different artifact paths
    can be run one after the other in any order: the state after all of
    them, with every image, is the same. *)
Theorem run_order_is_irrelevant `{B : Browser} (l l' : list Scenario) (w : World) :
  l ≡ₚ l' →
  Forall (λ sc, sc ∈ all_scripts) l →
  NoDup (artifact <$> l) →
  run_all l w = run_all l' w.
Proof.
  intros Hperm. revert w.
  induction Hperm as [|x l l' Hperm IH|x y l|l l' l'' H1 IH1 H2 IH2];
    intros w Hall Hnd.
  - done.
  - rewrite !run_all_cons. apply IH.
    + by apply Forall_cons_1 in Hall as [_ ?].
    + rewrite fmap_cons in Hnd. by apply NoDup_cons_1_2 in Hnd.
  - rewrite !run_all_cons. f_equal.
    apply Forall_cons_1 in Hall as [Hy Hall].
    apply Forall_cons_1 in Hall as [Hx _].
    rewrite !fmap_cons in Hnd. apply NoDup_cons_1_1 in Hnd.
    apply scripts_commute; [done | done |].
    intros Heq. apply Hnd. rewrite Heq. apply list_elem_of_here.
  - rewrite IH1 by done. apply IH2.
    + by rewrite <- H1.
    + by rewrite <- H1.
Qed.

(** Six scripts, one of them a full-library variant, forwards and
    backwards. *)
Lemma run_order_is_irrelevant_witness :
  let l := [ verify_all_components; verify_components; verify_display_components;
             verify_full_library_final_v3; verify_layout_components;
             verify_page_structure ] in
  run_all l (static_world structure_html)
  = run_all (reverse l) (static_world structure_html).
Proof.
  intros l.
  apply (@run_order_is_irrelevant static_page l (reverse l)).
  - symmetry. apply reverse_Permutation.
  - apply (bool_decide_unpack _). vm_compute. exact I.
  - apply (bool_decide_unpack _). vm_compute. exact I.
Defined.
